(** * Language correctness detector: the orchestration of [src/app.ts]

    [app.ts] is a single module: it reads [process.env], picks one of two
    chat clients, declares a response schema and a two-message prompt
    template, and [run] pipes the template into the schema-bound client,
    invokes the chain once on a sample input and logs the result.

    The embedding below follows the module top to bottom.  The hosted
    model is not part of the program: it appears as a [Backend], a state
    machine answering the one call the program makes. *)

From Stdlib Require Import Ascii QArith.
From stdpp Require Import gmap strings list.

Set Warnings "-register-all".

(** ** JavaScript values

    The values that cross the boundary are JSON: what the backend returns
    and what [console.log] receives.  An object keeps its properties in
    insertion order, so it is an association list; a number is a rational
    (every finite JSON number is one). *)

Inductive value : Type :=
| VUndefined
| VNull
| VBool (b : bool)
| VNum (q : Q)
| VStr (s : string)
| VArr (items : list value)
| VObj (props : list (string * value)).

(** [o[k]]: the first property named [k]. *)
Fixpoint prop (k : string) (props : list (string * value)) : option value :=
  match props with
  | [] => None
  | (k', v) :: rest => if String.eqb k k' then Some v else prop k rest
  end.

(** The object literal shorthand [{ result }]. *)
Definition shorthand (name : string) (v : value) : value := VObj [(name, v)].

(** ** Schemas

    The schema is built with the combinators of the validation library.
    Their declarations are data; what a declaration accepts is [accepts]
    below. *)

Inductive ZodCheck : Type :=
| CheckInt
| CheckMin (bound : Q)
| CheckMax (bound : Q).

Inductive ZodType : Type :=
| ZodEnum (values : list string)
| ZodNumber (checks : list ZodCheck)
| ZodString
| ZodArray (element : ZodType)
| ZodObject (shape : list (string * ZodType))
| ZodDescribed (inner : ZodType) (description : string).

Module z.
Definition enum (values : list string) : ZodType := ZodEnum values.
Definition number : ZodType := ZodNumber [].
Definition string : ZodType := ZodString.
Definition array (element : ZodType) : ZodType := ZodArray element.
Definition object (shape : list (String.string * ZodType)) : ZodType :=
  ZodObject shape.

(** A check is appended to the checks of a number schema; on any other
    schema the method does not exist. *)
Definition addCheck (c : ZodCheck) (t : ZodType) : ZodType :=
  match t with
  | ZodNumber cs => ZodNumber (cs ++ [c])
  | _ => t
  end.
Definition int : ZodType -> ZodType := addCheck CheckInt.
Definition min (bound : Q) : ZodType -> ZodType := addCheck (CheckMin bound).
Definition max (bound : Q) : ZodType -> ZodType := addCheck (CheckMax bound).
Definition describe (description : String.string) (t : ZodType) : ZodType :=
  ZodDescribed t description.
End z.

(** Method chaining: [x .> f] is [x.f]. *)
Notation "x .> f" := (f x) (at level 45, left associativity, only parsing).

(** Modelled from the spec: "integer": [Number.isInteger], the numerator is
    a multiple of the denominator. *)
Definition isInteger (q : Q) : bool :=
  (Qnum q mod Zpos (Qden q) =? 0)%Z.

(** Modelled from the spec: "in [1,10]": both bounds belong to the range. *)
Definition checkNumber (q : Q) (c : ZodCheck) : bool :=
  match c with
  | CheckInt => isInteger q
  | CheckMin bound => Qle_bool bound q
  | CheckMax bound => Qle_bool q bound
  end.

(** Modelled from the spec: the validator of the schema library is not part
    of src/.  "All fields are required and must satisfy their declared
    constraints": an enumeration accepts its listed strings, a number
    schema a number passing every check (bounds inclusive), a string schema
    a string, an array schema an array whose items are all accepted, an
    object schema an object that has every declared property with an
    accepted value.  A description constrains nothing. *)
Fixpoint accepts (t : ZodType) (v : value) : bool :=
  match t with
  | ZodEnum values =>
      match v with
      | VStr s => existsb (String.eqb s) values
      | _ => false
      end
  | ZodNumber checks =>
      match v with
      | VNum q => forallb (checkNumber q) checks
      | _ => false
      end
  | ZodString =>
      match v with
      | VStr _ => true
      | _ => false
      end
  | ZodArray element =>
      match v with
      | VArr items => forallb (accepts element) items
      | _ => false
      end
  | ZodObject shape =>
      match v with
      | VObj props =>
          forallb (fun field : string * ZodType =>
                     match prop (fst field) props with
                     | Some x => accepts (snd field) x
                     | None => false
                     end) shape
      | _ => false
      end
  | ZodDescribed inner _ => accepts inner v
  end.

(** The description attached to a schema, if any. *)
Definition description (t : ZodType) : option string :=
  match t with
  | ZodDescribed _ d => Some d
  | _ => None
  end.

(** The schema declared for a property of an object schema. *)
Fixpoint shapeOf (k : string) (shape : list (string * ZodType)) : option ZodType :=
  match shape with
  | [] => None
  | (k', t) :: rest => if String.eqb k k' then Some t else shapeOf k rest
  end.

Definition field (k : string) (t : ZodType) : option ZodType :=
  match t with
  | ZodObject shape => shapeOf k shape
  | _ => None
  end.

(** ** The module, top to bottom *)

Definition systemTemplate : string :=
  "You are an expert in {language}, you have to detect grammar problems sentences".

Definition classificationSchema : ZodType :=
  z.object [
    ("sentiment",
      z.enum ["happy"; "neutral"; "sad"; "angry"; "frustrated"]
      .> z.describe "The sentiment of the text");
    ("aggressiveness",
      z.number
      .> z.int
      .> z.min 1
      .> z.max 10
      .> z.describe "How aggressive the text is on a scale from 1 to 10");
    ("correctness",
      z.number
      .> z.int
      .> z.min 1
      .> z.max 10
      .> z.describe "How the sentece is correct grammarly the text is on a scale from 1 to 10");
    ("errors",
      z.array z.string
      .> z.describe "The errors in the text. Specify the proper way to write the text and where it is wrong. Explain it in a human-readable way. Write each errror in a separate string");
    ("solution",
      z.string
      .> z.describe "The solution to the errors in the text. Write the solution in {language}");
    ("language",
      z.string
      .> z.describe "The language the text is written in")
  ].

(** ** Errors and promises

    Whatever is thrown is an [Error] with a name and a message; an awaited
    promise either resolves to a value or rejects with an error. *)

Record Error : Type := { errorName : string; errorMessage : string }.

Inductive outcome (A : Type) : Type :=
| Resolved (a : A)
| Rejected (e : Error).
Arguments Resolved {A} a.
Arguments Rejected {A} e.

#[global] Instance outcome_ret : MRet outcome := fun A a => Resolved a.
#[global] Instance outcome_bind : MBind outcome := fun A B k o =>
  match o with
  | Resolved a => k a
  | Rejected e => Rejected e
  end.

(** ** The prompt template *)

Inductive Role : Type := system | user.

Record Message : Type := { role : Role; content : string }.

Inductive ParsedFStringNode : Type :=
| literal (text : string)
| variable (name : string).

Inductive Scanning : Type :=
| InText (seen : string)
| InName (seen : string).

Definition flush (seen : string) : list ParsedFStringNode :=
  if String.eqb seen "" then [] else [literal seen].

Definition snoc (s : string) (c : ascii) : string := s +:+ String c "".

(** Modelled from the spec: the template engine of the prompt library is
    not part of src/.  "A fixed template with named placeholders
    substituted by caller-supplied values": a template is read once, left
    to right; the text between an opening and the next closing brace names
    a placeholder, everything else is literal text.  A brace without its
    partner is an error. *)
Fixpoint parseFString (st : Scanning) (template : string)
  : outcome (list ParsedFStringNode) :=
  match template, st with
  | "", InText seen => Resolved (flush seen)
  | "", InName _ =>
      Rejected {| errorName := "Error"; errorMessage := "Unclosed '{' in template." |}
  | String c rest, InText seen =>
      if Ascii.eqb c "{"%char then
        nodes ← parseFString (InName "") rest; mret (flush seen ++ nodes)
      else if Ascii.eqb c "}"%char then
        Rejected {| errorName := "Error"; errorMessage := "Single '}' in template." |}
      else parseFString (InText (snoc seen c)) rest
  | String c rest, InName seen =>
      if Ascii.eqb c "}"%char then
        nodes ← parseFString (InText "") rest; mret (variable seen :: nodes)
      else parseFString (InName (snoc seen c)) rest
  end.

(** Modelled from the spec: each placeholder is replaced by the value the
    caller supplied under its name, literal text is kept, and the supplied
    values are not read again for placeholders.  A placeholder without a
    value is an error. *)
Fixpoint interpolateFString (nodes : list ParsedFStringNode)
    (values : gmap string string) : outcome string :=
  match nodes with
  | [] => Resolved ""
  | literal text :: rest =>
      tail ← interpolateFString rest values; mret (text +:+ tail)
  | variable name :: rest =>
      match values !! name with
      | Some v => tail ← interpolateFString rest values; mret (v +:+ tail)
      | None =>
          Rejected {| errorName := "Error";
                      errorMessage := "Missing value for input " +:+ name |}
      end
  end.

(** Modelled from the spec: rendering one template is reading it and
    filling it in, in that order. *)
Definition renderTemplate (template : string) (values : gmap string string)
  : outcome string :=
  nodes ← parseFString (InText "") template; interpolateFString nodes values.

(** [ChatPromptTemplate.fromMessages]: the (role, template) pairs as given. *)
Definition ChatPromptTemplate : Type := list (Role * string).

Definition fromMessages (pairs : list (Role * string)) : ChatPromptTemplate := pairs.

(** Modelled from the spec: "a static two-message template (system role +
    user role) with placeholder substitution": one message per pair, in
    the order given, each with its role and its rendered template. *)
Fixpoint formatMessages (t : ChatPromptTemplate) (values : gmap string string)
  : outcome (list Message) :=
  match t with
  | [] => Resolved []
  | (r, template) :: rest =>
      text ← renderTemplate template values;
      tail ← formatMessages rest values;
      mret ({| role := r; content := text |} :: tail)
  end.

Definition promptTemplate : ChatPromptTemplate :=
  fromMessages [
    (system, systemTemplate);
    (user, "{text}")
  ].

(** ** The provider selector *)

Record ChatModelFields : Type := { modelName : string; temperature : Q }.

Inductive BaseChatModel : Type :=
| ChatOpenAI (fields : ChatModelFields)
| ChatVertexAI (fields : ChatModelFields).

Definition fieldsOf (m : BaseChatModel) : ChatModelFields :=
  match m with
  | ChatOpenAI f => f
  | ChatVertexAI f => f
  end.

Definition isOpenAI (m : BaseChatModel) : bool :=
  match m with
  | ChatOpenAI _ => true
  | ChatVertexAI _ => false
  end.

(** [process.env]: a property is a string or is absent ([undefined]). *)
Abbreviation ProcessEnv := (gmap string string).

(** [x == "lit"] for [x] a string or [undefined]: no coercion applies, the
    comparison is that of the strings and [undefined] equals no string. *)
Definition looseEq (x : option string) (lit : string) : bool :=
  match x with
  | Some s => String.eqb s lit
  | None => false
  end.

Definition model (env : ProcessEnv) : BaseChatModel :=
  if looseEq (env !! "LLM_PROVIDER") "OPENAI" then
    ChatOpenAI {| modelName := "gpt-4"; temperature := 0 |}
  else
    ChatVertexAI {| modelName := "gemini-1.5-pro-001"; temperature := 0 |}.

(** ** The backend and the effects of the program

    The program has two effects: the call to the hosted model and
    [console.log].  [model.withStructuredOutput(schema, options)] yields a
    handle; invoking it with the rendered messages is the call.  The
    [Request] is everything the client was given for that call. *)

Record StructuredOutputOptions : Type := { name : string }.

Record Request : Type := {
  client : BaseChatModel;
  schema : ZodType;
  options : StructuredOutputOptions;
  messages : list Message
}.

Inductive Event : Type :=
| Invoked (r : Request)
| Logged (v : value).

(** A backend answers a request with a value or an error and moves to its
    next state, so that a second call may be answered differently. *)
Record Backend : Type := {
  backendState : Type;
  respond : backendState -> Request -> backendState * outcome value
}.

(** [new ChatOpenAI(...)], [new ChatVertexAI(...)]: a constructor of the
    client library looks at the environment and either builds the client
    or throws. *)
Definition Construction : Type := ProcessEnv -> BaseChatModel -> option Error.

Section Effects.
Context (B : Backend).

Record World : Type := {
  backend : backendState B;
  events : list Event
}.

(** An asynchronous computation: it changes the world and settles. *)
Definition Async (A : Type) : Type := World -> World * outcome A.

#[global] Instance Async_ret : MRet Async := fun A a w => (w, Resolved a).
#[global] Instance Async_bind : MBind Async := fun A B' k m w =>
  match m w with
  | (w', Resolved a) => k a w'
  | (w', Rejected e) => (w', Rejected e)
  end.

Definition settle {A : Type} (o : outcome A) : Async A := fun w => (w, o).

Definition invokeBackend (r : Request) : Async value := fun w =>
  let (s', o) := respond B (backend w) r in
  ({| backend := s'; events := events w ++ [Invoked r] |}, o).

Definition console_log (v : value) : Async unit := fun w =>
  ({| backend := backend w; events := events w ++ [Logged v] |}, Resolved ()).

(** The pieces of a chain come from the prompt library, which is not part
    of src/; a runnable maps its input to an asynchronous output. *)
Definition Runnable (I O : Type) : Type := I -> Async O.

(** Modelled from the spec: the library's [pipe] is missing; "composes
    prompt template → schema-constrained model call": the output of the
    first runnable is the input of the next, and a rejection of the first
    is the rejection of the whole. *)
Definition pipe {I X O : Type} (first : Runnable I X) (next : Runnable X O)
  : Runnable I O :=
  fun input => x ← first input; next x.

(** Modelled from the spec: the library's template runnable is missing;
    invoked with the caller's values it yields "a prompt built from a
    fixed template with named placeholders substituted". *)
Definition invokeTemplate (t : ChatPromptTemplate)
  : Runnable (gmap string string) (list Message) :=
  fun values => settle (formatMessages t values).

(** Modelled from the spec: the client's [withStructuredOutput] is
    missing; "send both to the backend, expect back a value": the handle
    sends the messages with the schema and its options through the client
    and settles as the backend answers. *)
Definition withStructuredOutput (m : BaseChatModel) (s : ZodType)
    (o : StructuredOutputOptions) : Runnable (list Message) value :=
  fun msgs =>
    invokeBackend {| client := m; schema := s; options := o; messages := msgs |}.

(** *** [run] *)

Definition llmWihStructuredOutput (m : BaseChatModel)
  : Runnable (list Message) value :=
  withStructuredOutput m classificationSchema {| name := "extractor" |}.

Definition chain (m : BaseChatModel) : Runnable (gmap string string) value :=
  pipe (invokeTemplate promptTemplate) (llmWihStructuredOutput m).

Definition run (m : BaseChatModel) : Async unit :=
  result ← chain m {[ "language" := "Spanish"; "text" := "Yo estas enfadado consigo" ]};
  console_log (shorthand "result" result).

(** *** The module body

    [env] is [process.env] once [dotenv.config()] has filled it.  The
    client is constructed while the module loads: when its constructor
    throws, the module ends there and [run] is never called.  After the
    declarations the module calls [run()] and drops the promise: a
    rejection is handled nowhere and ends the process. *)

Inductive Exit : Type :=
| ExitNormally
| ExitUncaught (e : Error).

Definition main (new : Construction) (env : ProcessEnv) (w : World)
  : World * Exit :=
  match new env (model env) with
  | Some e => (w, ExitUncaught e)
  | None =>
      match run (model env) w with
      | (w', Resolved _) => (w', ExitNormally)
      | (w', Rejected e) => (w', ExitUncaught e)
      end
  end.

Definition boot (s : backendState B) : World := {| backend := s; events := [] |}.
End Effects.

Arguments backend {B} w.
Arguments events {B} w.
Arguments settle {B A} o w.
Arguments invokeBackend {B} r w.
Arguments console_log {B} v w.
Arguments run {B} m w.
Arguments chain {B} m input w.
Arguments main {B} new env w.

(** ** Reading a trace *)

Definition requests (tr : list Event) : list Request :=
  omap (fun ev => match ev with Invoked r => Some r | Logged _ => None end) tr.

Definition logged (tr : list Event) : list value :=
  omap (fun ev => match ev with Logged v => Some v | Invoked _ => None end) tr.

(** ** Stub backends *)

(** Always resolves to [v]. *)
Definition stubReturning (v : value) : Backend :=
  {| backendState := unit; respond := fun s _ => (s, Resolved v) |}.

(** Always rejects with [e]. *)
Definition stubFailing (e : Error) : Backend :=
  {| backendState := unit; respond := fun s _ => (s, Rejected e) |}.

(** Rejects the first [n] calls with [e], then resolves to [v]. *)
Definition stubFlaky (e : Error) (v : value) : Backend :=
  {| backendState := nat;
     respond := fun n _ =>
       match n with
       | O => (O, Resolved v)
       | S n' => (n', Rejected e)
       end |}.

(** ** The client library at the boundary *)

(** Builds every client. *)
Definition constructs : Construction := fun _ _ => None.

(** Modelled from the spec: the constructors of the client library are
    not part of src/.  "[OPENAI_API_KEY] (credential)" and "missing
    credentials" as a failure: the OpenAI client is not built when the
    environment has no [OPENAI_API_KEY]. *)
Definition needsOpenAIKey : Construction := fun env m =>
  match m, env !! "OPENAI_API_KEY" with
  | ChatOpenAI _, None =>
      Some {| errorName := "Error"; errorMessage := "OpenAI API key not found" |}
  | _, _ => None
  end.

Definition OutputParserException (message : string) : Error :=
  {| errorName := "OutputParserException"; errorMessage := message |}.

(** Modelled from the spec: the schema-bound handle of the client library
    is not part of src/.  "Send both to the backend.  Expect back a value
    conforming to the schema", with "schema-validation failure" a failure
    of the call: the handle parses the answer of the hosted model with
    the schema of the request, hands on what it parsed from an accepted
    answer and rejects any other answer with the parser's exception.  An
    error of the hosted model is the handle's error.  What the parser
    makes of an accepted value ([parsed]) and the text of its message
    ([describe]) are the library's and are left open. *)
Definition parsing (parsed : value -> value) (describe : value -> string)
    (hosted : Backend) : Backend :=
  {| backendState := backendState hosted;
     respond := fun s r =>
       match respond hosted s r with
       | (s', Resolved v) =>
           if accepts (schema r) v then (s', Resolved (parsed v))
           else (s', Rejected (OutputParserException (describe v)))
       | (s', Rejected e) => (s', Rejected e)
       end |}.

(** ** Words of the specification *)

(** [stripPrefix p s]: what follows [p] in [s] when [s] starts with [p]. *)
Fixpoint stripPrefix (p s : string) : option string :=
  match p, s with
  | "", _ => Some s
  | String a p', String b s' => if Ascii.eqb a b then stripPrefix p' s' else None
  | String _ _, "" => None
  end.

(** "The template with [{language}] substituted by the supplied language":
    the first occurrence of the placeholder, braces included, gives way to
    the value; the text around it stays. *)
Fixpoint substituted (placeholder value template : string) : string :=
  match stripPrefix placeholder template with
  | Some rest => value +:+ rest
  | None =>
      match template with
      | "" => ""
      | String c rest => String c (substituted placeholder value rest)
      end
  end.

(** [s.includes(needle)]. *)
Fixpoint includes (needle s : string) : bool :=
  match stripPrefix needle s with
  | Some _ => true
  | None =>
      match s with
      | "" => false
      | String _ rest => includes needle rest
      end
  end.

(** The object [{ language, text }] handed to [chain.invoke]. *)
Definition inputPair (language text : string) : gmap string string :=
  {[ "language" := language; "text" := text ]}.

(** The two messages the template renders to for a pair. *)
Definition renderedPair (language text : string) : list Message :=
  [ {| role := system;
       content := "You are an expert in " +:+ language
                  +:+ ", you have to detect grammar problems sentences" |};
    {| role := user; content := text |} ].

(** The request [run] makes through client [m] for a pair. *)
Definition requestFor (m : BaseChatModel) (language text : string) : Request :=
  {| client := m;
     schema := classificationSchema;
     options := {| name := "extractor" |};
     messages := renderedPair language text |}.

(** The example result of the specification and a response that breaks the
    bound on [aggressiveness]. *)
Definition exampleResult : value :=
  VObj [ ("sentiment", VStr "angry");
         ("aggressiveness", VNum 2);
         ("correctness", VNum 7);
         ("errors", VArr [VStr "use estar not ser for temporary states"]);
         ("solution", VStr "Yo estoy enfadado");
         ("language", VStr "Spanish") ].

Definition tooAggressive : value :=
  VObj [ ("sentiment", VStr "angry");
         ("aggressiveness", VNum 15);
         ("correctness", VNum 7);
         ("errors", VArr []);
         ("solution", VStr "Yo estoy enfadado");
         ("language", VStr "Spanish") ].

Definition timeout : Error :=
  {| errorName := "Error"; errorMessage := "socket hang up" |}.

(** "Integer in [lo, hi]". *)
Definition integerIn (lo hi : Z) (q : Q) : Prop :=
  exists n : Z, (q == inject_Z n)%Q /\ (lo <= n <= hi)%Z.

(** The six constraints of a Classification Result, all at once. *)
Definition ClassificationResult (v : value) : Prop :=
  exists (props : list (string * value))
         (sentiment : string) (aggressiveness correctness : Q)
         (errors : list string) (solution language : string),
    v = VObj props
    /\ prop "sentiment" props = Some (VStr sentiment)
    /\ In sentiment ["happy"; "neutral"; "sad"; "angry"; "frustrated"]
    /\ prop "aggressiveness" props = Some (VNum aggressiveness)
    /\ integerIn 1 10 aggressiveness
    /\ prop "correctness" props = Some (VNum correctness)
    /\ integerIn 1 10 correctness
    /\ prop "errors" props = Some (VArr (VStr <$> errors))
    /\ prop "solution" props = Some (VStr solution)
    /\ prop "language" props = Some (VStr language).

(** The request of [run]: its sample input is fixed in the source. *)
Definition sampleRequest (m : BaseChatModel) : Request :=
  requestFor m "Spanish" "Yo estas enfadado consigo".

(** What a settled computation printed, and which error it surfaced. *)
Definition printed {B : Backend} {A : Type} (r : World B * outcome A) : list value :=
  logged (events r.1).

Definition surfaces {B : Backend} {A : Type} (r : World B * outcome A)
    (kind : string) : Prop :=
  exists e : Error, r.2 = Rejected e /\ errorName e = kind.

(** The computation made its requests with the messages the template
    renders for the pair [(language, text)]. *)
Definition binds {B : Backend} {A : Type} (r : World B * outcome A)
    (language text : string) : Prop :=
  exists msgs : list Message,
    formatMessages promptTemplate (inputPair language text) = Resolved msgs
    /\ messages <$> requests (events r.1) = [msgs].

(** "The error propagates uncaught out of [run]": whenever the module ends
    on an error, it is [run] that rejected with it. *)
Definition propagatesOutOfRun {B : Backend} (new : Construction)
    (env : ProcessEnv) (w : World B) : Prop :=
  forall e : Error,
    (main new env w).2 = ExitUncaught e ->
    exists w' : World B, run (model env) w = (w', Rejected e).

(** * Properties *)

(** ** Provider selection *)

Lemma looseEq_spec (x : option string) (lit : string) :
  looseEq x lit = true <-> x = Some lit.
Proof.
  destruct x as [s|]; simpl.
  - rewrite String.eqb_eq. split; [intros -> | intros [= ->]]; reflexivity.
  - split; discriminate.
Qed.

Lemma model_cases (env : ProcessEnv) :
  (env !! "LLM_PROVIDER" = Some "OPENAI"
   /\ model env = ChatOpenAI {| modelName := "gpt-4"; temperature := 0 |})
  \/ (env !! "LLM_PROVIDER" <> Some "OPENAI"
      /\ model env = ChatVertexAI {| modelName := "gemini-1.5-pro-001"; temperature := 0 |}).
Proof.
  unfold model.
  destruct (looseEq (env !! "LLM_PROVIDER") "OPENAI") eqn:E.
  - left. split; [apply looseEq_spec, E | reflexivity].
  - right. split; [| reflexivity].
    intros H. apply looseEq_spec in H. congruence.
Qed.

(** C1. The selector chooses the OpenAI client exactly when [LLM_PROVIDER]
    is the string ["OPENAI"]; for every other content of the variable the
    Vertex AI client is chosen, in particular when it is unset, empty or
    spelled in lower case. *)
Theorem model_openai_iff_exact (env : ProcessEnv) :
  (isOpenAI (model env) = true <-> env !! "LLM_PROVIDER" = Some "OPENAI")
  /\ (isOpenAI (model env) = false <-> env !! "LLM_PROVIDER" <> Some "OPENAI")
  /\ isOpenAI (model ∅) = false
  /\ isOpenAI (model {[ "LLM_PROVIDER" := "" ]}) = false
  /\ isOpenAI (model {[ "LLM_PROVIDER" := "openai" ]}) = false
  /\ isOpenAI (model {[ "LLM_PROVIDER" := "OPENAI " ]}) = false.
Proof.
  split; [| split].
  - destruct (model_cases env) as [[Hv ->] | [Hv ->]]; simpl; split;
      intros; congruence.
  - destruct (model_cases env) as [[Hv ->] | [Hv ->]]; simpl; split;
      intros; congruence.
  - repeat split; vm_compute; reflexivity.
Qed.

(** C9. On either branch the client is built with a fixed model identifier,
    ["gpt-4"] for OpenAI and ["gemini-1.5-pro-001"] for Vertex AI, and
    with temperature 0. *)
Theorem model_fixed_fields (env : ProcessEnv) :
  modelName (fieldsOf (model env))
    = (if isOpenAI (model env) then "gpt-4" else "gemini-1.5-pro-001")
  /\ temperature (fieldsOf (model env)) = 0%Q.
Proof.
  destruct (model_cases env) as [[_ ->] | [_ ->]]; split; reflexivity.
Qed.

(** ** The rendered prompt *)

Lemma append_empty_r (s : string) : s +:+ "" = s.
Proof.
  induction s as [|c s IH]; [reflexivity |].
  change (String c (s +:+ "") = String c s). now rewrite IH.
Qed.

Lemma parse_systemTemplate :
  parseFString (InText "") systemTemplate
  = Resolved [ literal "You are an expert in ";
               variable "language";
               literal ", you have to detect grammar problems sentences" ].
Proof. vm_compute. reflexivity. Qed.

Lemma parse_userTemplate :
  parseFString (InText "") "{text}" = Resolved [variable "text"].
Proof. vm_compute. reflexivity. Qed.

Lemma inputPair_language (language text : string) :
  inputPair language text !! "language" = Some language.
Proof. unfold inputPair. apply lookup_insert_eq. Qed.

Lemma inputPair_text (language text : string) :
  inputPair language text !! "text" = Some text.
Proof.
  unfold inputPair. rewrite lookup_insert_ne by discriminate.
  apply lookup_singleton_eq.
Qed.

Lemma formatMessages_pair (language text : string) :
  formatMessages promptTemplate (inputPair language text)
  = Resolved (renderedPair language text).
Proof.
  unfold promptTemplate, fromMessages, formatMessages, renderTemplate.
  rewrite parse_systemTemplate, parse_userTemplate.
  cbn [mbind outcome_bind mret outcome_ret interpolateFString].
  rewrite inputPair_language, inputPair_text.
  cbn [mbind outcome_bind mret outcome_ret].
  rewrite !append_empty_r. reflexivity.
Qed.

(** C2. For every language and text the template renders to exactly two
    messages: a system message whose content is the system template with
    the placeholder [{language}] replaced by the language, and a user
    message whose content is the text, character for character. *)
Theorem promptTemplate_renders_pair (language text : string) :
  exists sys usr : Message,
    formatMessages promptTemplate (inputPair language text) = Resolved [sys; usr]
    /\ role sys = system
    /\ content sys = substituted "{language}" language systemTemplate
    /\ role usr = user
    /\ content usr = text.
Proof.
  eexists _, _. split; [apply formatMessages_pair |].
  repeat split; reflexivity.
Qed.

(** ** The schema *)

Lemma isInteger_spec (q : Q) :
  isInteger q = true <-> exists n : Z, (q == inject_Z n)%Q.
Proof.
  destruct q as [a d]. unfold isInteger, Qeq. simpl. rewrite Z.eqb_eq. split.
  - intros H. exists (a / Zpos d)%Z.
    pose proof (Z.div_mod a (Zpos d) ltac:(discriminate)) as E. lia.
  - intros [n E]. rewrite Z.mul_1_r in E. subst a. apply Z.mod_mul. discriminate.
Qed.

Lemma checks_integerIn (q : Q) :
  forallb (checkNumber q) [CheckInt; CheckMin 1; CheckMax 10] = true
  <-> integerIn 1 10 q.
Proof.
  simpl. rewrite !andb_true_iff, isInteger_spec, !Qle_bool_iff. split.
  - intros ([n E] & Hlo & Hhi & _). exists n. split; [exact E |].
    rewrite E in Hlo, Hhi.
    change 1%Q with (inject_Z 1) in Hlo. change 10%Q with (inject_Z 10) in Hhi.
    rewrite <- Zle_Qle in Hlo, Hhi. lia.
  - intros (n & E & Hlo & Hhi). split; [exists n; exact E |].
    rewrite E. change 1%Q with (inject_Z 1). change 10%Q with (inject_Z 10).
    rewrite <- !Zle_Qle. auto.
Qed.

Lemma strings_spec (items : list value) :
  forallb (accepts ZodString) items = true
  <-> exists strs : list string, items = VStr <$> strs.
Proof.
  induction items as [|v items IH]; simpl.
  - split; [exists []; reflexivity | reflexivity].
  - rewrite andb_true_iff, IH. split.
    + intros [Hv [strs ->]]. destruct v; try discriminate.
      exists (s :: strs). reflexivity.
    + intros [[|s strs] E]; [discriminate |].
      injection E as -> ->. split; [reflexivity | eauto].
Qed.

Lemma enum_spec (s : string) (values : list string) :
  existsb (String.eqb s) values = true <-> In s values.
Proof.
  rewrite existsb_exists. split.
  - intros (x & Hin & E). apply String.eqb_eq in E. now subst.
  - intros Hin. exists s. split; [exact Hin | apply String.eqb_refl].
Qed.

(** One declared property of an object schema: present and accepted. *)
Ltac required H k props :=
  let E := fresh "E" in
  destruct (prop k props) as [[]|] eqn:E; try discriminate H.

Lemma classificationSchema_spec (v : value) :
  accepts classificationSchema v = true <-> ClassificationResult v.
Proof.
  unfold ClassificationResult. split.
  - intros H. destruct v as [| | | | |items|props]; try discriminate H.
    change (accepts classificationSchema (VObj props)) with
      (match prop "sentiment" props with
       | Some x => accepts (ZodEnum ["happy"; "neutral"; "sad"; "angry"; "frustrated"]) x
       | None => false
       end
       && (match prop "aggressiveness" props with
           | Some x => accepts (ZodNumber [CheckInt; CheckMin 1; CheckMax 10]) x
           | None => false
           end
       && (match prop "correctness" props with
           | Some x => accepts (ZodNumber [CheckInt; CheckMin 1; CheckMax 10]) x
           | None => false
           end
       && (match prop "errors" props with
           | Some x => accepts (ZodArray ZodString) x
           | None => false
           end
       && (match prop "solution" props with
           | Some x => accepts ZodString x
           | None => false
           end
       && (match prop "language" props with
           | Some x => accepts ZodString x
           | None => false
           end
       && true)))))) in H.
    rewrite !andb_true_iff in H.
    destruct H as (Hs & Ha & Hc & He & Hsol & Hl & _).
    required Hs "sentiment" props.
    required Ha "aggressiveness" props.
    required Hc "correctness" props.
    required He "errors" props.
    required Hsol "solution" props.
    required Hl "language" props.
    apply enum_spec in Hs. apply checks_integerIn in Ha, Hc.
    apply strings_spec in He as [strs ->].
    eexists props, _, _, _, strs, _, _. repeat split; eauto.
  - intros (props & sen & agg & cor & errs & sol & lang & -> & Es & Hs & Ea & Ha
            & Ec & Hc & Ee & Esol & El).
    apply enum_spec in Hs. apply checks_integerIn in Ha, Hc.
    pose proof (proj2 (strings_spec (VStr <$> errs)) (ex_intro _ errs eq_refl)) as He.
    simpl. rewrite Es, Ea, Ec, Ee, Esol, El. simpl in *.
    rewrite Hs, Ha, Hc, He. reflexivity.
Qed.

(** C3. Whatever the declared schema accepts is an object that has all six
    properties, each within its constraint at once: [sentiment] one of the
    five listed strings, [aggressiveness] and [correctness] integers from 1
    to 10, [errors] a list of strings (possibly empty), [solution] and
    [language] strings. *)
Theorem classificationSchema_sound (v : value) :
  accepts classificationSchema v = true -> ClassificationResult v.
Proof. apply classificationSchema_spec. Qed.

Lemma classificationSchema_sound_witness :
  accepts classificationSchema exampleResult = true
  /\ ClassificationResult exampleResult.
Proof.
  split; [reflexivity |].
  apply (classificationSchema_sound exampleResult). reflexivity.
Defined.

(** ** The orchestration *)

Lemma requests_app (tr tr' : list Event) :
  requests (tr ++ tr') = requests tr ++ requests tr'.
Proof. apply omap_app. Qed.

Lemma logged_app (tr tr' : list Event) :
  logged (tr ++ tr') = logged tr ++ logged tr'.
Proof. apply omap_app. Qed.

Section Orchestration.
Context {B : Backend}.
Implicit Types (m : BaseChatModel) (w : World B).

Lemma chain_pair m (language text : string) w :
  chain m (inputPair language text) w
  = ({| backend := (respond B (backend w) (requestFor m language text)).1;
        events := events w ++ [Invoked (requestFor m language text)] |},
     (respond B (backend w) (requestFor m language text)).2).
Proof.
  unfold chain, pipe, invokeTemplate, llmWihStructuredOutput,
    withStructuredOutput, mbind, Async_bind, settle, invokeBackend.
  rewrite formatMessages_pair. fold (requestFor m language text).
  destruct (respond B (backend w) (requestFor m language text)); reflexivity.
Qed.

Lemma run_settles m w :
  run m w
  = match (respond B (backend w) (sampleRequest m)).2 with
    | Resolved v =>
        ({| backend := (respond B (backend w) (sampleRequest m)).1;
            events := events w
                      ++ [Invoked (sampleRequest m); Logged (shorthand "result" v)] |},
         Resolved ())
    | Rejected e =>
        ({| backend := (respond B (backend w) (sampleRequest m)).1;
            events := events w ++ [Invoked (sampleRequest m)] |},
         Rejected e)
    end.
Proof.
  unfold run, mbind, Async_bind.
  change ({[ "language" := "Spanish"; "text" := "Yo estas enfadado consigo" ]}
          : gmap string string)
    with (inputPair "Spanish" "Yo estas enfadado consigo").
  rewrite chain_pair. fold (sampleRequest m).
  destruct (respond B (backend w) (sampleRequest m)) as [s' [v|e]];
    [| reflexivity].
  unfold console_log. cbn [fst snd backend events].
  rewrite <- app_assoc. reflexivity.
Qed.


Lemma run_rejected m w (s' : backendState B) (e : Error) :
  respond B (backend w) (sampleRequest m) = (s', Rejected e) ->
  run m w
  = ({| backend := s'; events := events w ++ [Invoked (sampleRequest m)] |},
     Rejected e).
Proof. intros H. rewrite run_settles, H. reflexivity. Qed.
End Orchestration.


Lemma respond_parsing (parsed : value -> value) (describe : value -> string)
    (hosted : Backend) (s : backendState hosted) (r : Request) :
  respond (parsing parsed describe hosted) s r
  = match respond hosted s r with
    | (s', Resolved v) =>
        if accepts (schema r) v then (s', Resolved (parsed v))
        else (s', Rejected (OutputParserException (describe v)))
    | (s', Rejected e) => (s', Rejected e)
    end.
Proof. reflexivity. Qed.

Lemma main_settles (B : Backend) (new : Construction) (env : ProcessEnv)
    (w : World B) :
  main new env w
  = match new env (model env) with
    | Some e => (w, ExitUncaught e)
    | None =>
        match (respond B (backend w) (sampleRequest (model env))).2 with
        | Resolved v =>
            ({| backend := (respond B (backend w) (sampleRequest (model env))).1;
                events := events w
                          ++ [Invoked (sampleRequest (model env));
                              Logged (shorthand "result" v)] |},
             ExitNormally)
        | Rejected e =>
            ({| backend := (respond B (backend w) (sampleRequest (model env))).1;
                events := events w ++ [Invoked (sampleRequest (model env))] |},
             ExitUncaught e)
        end
    end.
Proof.
  unfold main. destruct (new env (model env)) as [e|]; [reflexivity |].
  rewrite run_settles.
  destruct (respond B (backend w) (sampleRequest (model env))) as [s' [v|e]];
    reflexivity.
Qed.

(** C8, as stated, fails for missing credentials: with [LLM_PROVIDER] set
    to ["OPENAI"] and no key the constructor throws while the module
    loads.  The process ends on that error, but no request was made and
    [run], given the client, would not have rejected: the error did not
    come out of [run]. *)
Lemma constructor_error_not_out_of_run :
  (main needsOpenAIKey {[ "LLM_PROVIDER" := "OPENAI" ]}
     (boot (stubReturning exampleResult) ())).2
  = ExitUncaught {| errorName := "Error"; errorMessage := "OpenAI API key not found" |}
  /\ events (main needsOpenAIKey {[ "LLM_PROVIDER" := "OPENAI" ]}
               (boot (stubReturning exampleResult) ())).1 = []
  /\ ~ propagatesOutOfRun needsOpenAIKey {[ "LLM_PROVIDER" := "OPENAI" ]}
         (boot (stubReturning exampleResult) ()).
Proof.
  split; [reflexivity |]. split; [reflexivity |].
  intros H. destruct (H _ eq_refl) as [w' Hw']. discriminate Hw'.
Qed.

(** C8, amended.  The module handles no error, and there are three ways to
    fail.  When the constructor of the selected client throws (missing
    credentials), the module ends on that error at load: [run] is not
    called, nothing is requested, nothing logged.  When the hosted model
    fails (network), [run] rejects with that error after its single
    request.  When the hosted model answers with a value the schema does
    not accept (malformed response), the handle rejects and [run]
    rejects with the parser's exception after its single request.  In
    each case nothing is logged, nothing is asked again, and the process
    ends with the error uncaught; only a constructed client and an
    accepted answer lead to a normal exit. *)
Theorem main_handles_no_error (new : Construction) (parsed : value -> value)
    (describe : value -> string) (hosted : Backend) (env : ProcessEnv)
    (w : World (parsing parsed describe hosted)) :
  main new env w
  = match new env (model env) with
    | Some e => (w, ExitUncaught e)
    | None =>
        match respond hosted (backend w) (sampleRequest (model env)) with
        | (s', Rejected e) =>
            (Build_World (parsing parsed describe hosted) s'
               (events w ++ [Invoked (sampleRequest (model env))]),
             ExitUncaught e)
        | (s', Resolved v) =>
            if accepts classificationSchema v then
              (Build_World (parsing parsed describe hosted) s'
                 (events w ++ [Invoked (sampleRequest (model env));
                               Logged (shorthand "result" (parsed v))]),
               ExitNormally)
            else
              (Build_World (parsing parsed describe hosted) s'
                 (events w ++ [Invoked (sampleRequest (model env))]),
               ExitUncaught (OutputParserException (describe v)))
        end
    end.
Proof.
  rewrite main_settles. destruct (new env (model env)) as [e|]; [reflexivity |].
  rewrite respond_parsing.
  change (schema (sampleRequest (model env))) with classificationSchema.
  destruct (respond hosted (backend w) (sampleRequest (model env))) as [s' [v|e]];
    [| reflexivity].
  destruct (accepts classificationSchema v); reflexivity.
Qed.

(** C4, as stated, fails in the name of the error: for a hosted model that
    answers with [aggressiveness = 15] the handle rejects with the
    parser's exception, which is no [ValidationError]; nothing is
    printed. *)
Lemma malformed_response_is_no_ValidationError :
  accepts classificationSchema tooAggressive = false
  /\ ~ surfaces
        (run (model ∅)
           (boot (parsing id (fun _ => "Failed to parse")
                    (stubReturning tooAggressive)) ()))
        "ValidationError"
  /\ printed
       (run (model ∅)
          (boot (parsing id (fun _ => "Failed to parse")
                   (stubReturning tooAggressive)) ()))
     = [].
Proof.
  split; [reflexivity |]. split; [| reflexivity].
  intros (e & He & Hn). injection He as <-. discriminate Hn.
Qed.

(** C4, amended.  For every answer of the hosted model that the declared
    schema does not accept, [run] rejects with the parser's exception of
    the schema-bound handle, an [OutputParserException] (the source has no
    [ValidationError]), after its single request, and prints nothing: the
    malformed value does not reach standard output. *)
Theorem run_rejects_malformed_response (parsed : value -> value)
    (describe : value -> string) (hosted : Backend) (m : BaseChatModel)
    (w : World (parsing parsed describe hosted))
    (s' : backendState hosted) (v : value) :
  respond hosted (backend w) (sampleRequest m) = (s', Resolved v) ->
  accepts classificationSchema v = false ->
  run m w
  = (Build_World (parsing parsed describe hosted) s'
       (events w ++ [Invoked (sampleRequest m)]),
     Rejected (OutputParserException (describe v)))
  /\ surfaces (run m w) "OutputParserException"
  /\ printed (run m w) = logged (events w).
Proof.
  intros Hr Hv.
  assert (run m w
          = (Build_World (parsing parsed describe hosted) s'
               (events w ++ [Invoked (sampleRequest m)]),
             Rejected (OutputParserException (describe v)))) as R.
  { apply run_rejected. rewrite respond_parsing, Hr.
    change (schema (sampleRequest m)) with classificationSchema.
    rewrite Hv. reflexivity. }
  split; [exact R |]. unfold surfaces, printed. rewrite R. split.
  - eexists. split; reflexivity.
  - cbn [fst events]. rewrite logged_app. apply app_nil_r.
Qed.

Lemma run_rejects_malformed_response_witness :
  accepts classificationSchema tooAggressive = false
  /\ surfaces
       (run (model ∅)
          (boot (parsing id (fun _ => "Failed to parse")
                   (stubReturning tooAggressive)) ()))
       "OutputParserException"
  /\ printed
       (run (model ∅)
          (boot (parsing id (fun _ => "Failed to parse")
                   (stubReturning tooAggressive)) ()))
     = [].
Proof.
  split; [reflexivity |].
  apply (run_rejects_malformed_response id (fun _ => "Failed to parse")
           (stubReturning tooAggressive) (model ∅)
           (boot (parsing id (fun _ => "Failed to parse")
                    (stubReturning tooAggressive)) ())
           () tooAggressive); reflexivity.
Defined.




(** C7, as stated, fails twice: the sample text in the source is not
    "Yo soy enfadado", and the example result is printed inside another
    object. *)
Lemma run_sample_is_not_soy_enfadado :
  ~ binds (run (model ∅) (boot (stubReturning exampleResult) ()))
      "Spanish" "Yo soy enfadado"
  /\ printed (run (model ∅) (boot (stubReturning exampleResult) ()))
     <> [exampleResult].
Proof.
  split; [| discriminate].
  intros (msgs & Hm & Hr). rewrite formatMessages_pair in Hm.
  injection Hm as <-. discriminate Hr.
Qed.

(** C7, amended.  [run] binds the sample input of the source, language
    "Spanish" and text "Yo estas enfadado consigo", to the template, and
    with a stub backend returning the example result it prints one object
    whose property [result] is exactly that result. *)
Theorem run_sample_scenario (m : BaseChatModel) :
  binds (run m (boot (stubReturning exampleResult) ()))
    "Spanish" "Yo estas enfadado consigo"
  /\ printed (run m (boot (stubReturning exampleResult) ()))
     = [VObj [("result", exampleResult)]].
Proof.
  split; [| reflexivity].
  exists (renderedPair "Spanish" "Yo estas enfadado consigo").
  split; [apply formatMessages_pair | reflexivity].
Qed.

(** C10. The schema is a constant.  For every client, language and text the
    chain hands the backend the declared schema, the same each time; the
    guidance of [solution] in it reads "... Write the solution in
    {language}", placeholder and braces as written: substitution reaches
    the messages and leaves the schema alone. *)
Theorem schema_is_static (B : Backend) (m : BaseChatModel)
    (language text : string) (w : World B) :
  schema <$> requests (events (chain m (inputPair language text) w).1)
  = (schema <$> requests (events w)) ++ [classificationSchema]
  /\ messages <$> requests (events (chain m (inputPair language text) w).1)
     = (messages <$> requests (events w)) ++ [renderedPair language text]
  /\ field "solution" classificationSchema ≫= description
     = Some "The solution to the errors in the text. Write the solution in {language}"
  /\ includes "{language}" <$> (field "solution" classificationSchema ≫= description)
     = Some true.
Proof.
  rewrite chain_pair. cbn [fst events].
  rewrite requests_app, !fmap_app. repeat split; reflexivity.
Qed.

(** ** Examples *)

(** Braces in a supplied value are text: a value is never read as a
    template. *)
Example render_value_with_braces :
  formatMessages promptTemplate (inputPair "{text}" "a {language} }{")
  = Resolved [ {| role := system;
                  content := "You are an expert in {text}, you have to detect grammar problems sentences" |};
               {| role := user; content := "a {language} }{" |} ].
Proof. apply formatMessages_pair. Qed.

(** A template needs every value it names. *)
Example render_missing_value :
  formatMessages promptTemplate {[ "language" := "Spanish" ]}
  = Rejected {| errorName := "Error"; errorMessage := "Missing value for input text" |}.
Proof. vm_compute. reflexivity. Qed.

(** What the schema turns down: a bound exceeded, a fraction, a sentiment
    outside the list, a property left out; and what it lets through: a
    property it does not declare. *)
Example schema_rejects_fraction :
  accepts classificationSchema
    (VObj [ ("sentiment", VStr "sad"); ("aggressiveness", VNum (5 # 2));
            ("correctness", VNum 7); ("errors", VArr []);
            ("solution", VStr ""); ("language", VStr "") ]) = false.
Proof. reflexivity. Qed.

Example schema_rejects_unknown_sentiment :
  accepts classificationSchema
    (VObj [ ("sentiment", VStr "furious"); ("aggressiveness", VNum 9);
            ("correctness", VNum 7); ("errors", VArr []);
            ("solution", VStr ""); ("language", VStr "") ]) = false.
Proof. reflexivity. Qed.

Example schema_rejects_missing_property :
  accepts classificationSchema
    (VObj [ ("sentiment", VStr "sad"); ("aggressiveness", VNum 9);
            ("correctness", VNum 7); ("errors", VArr []);
            ("solution", VStr "") ]) = false.
Proof. reflexivity. Qed.

Example schema_accepts_bounds_and_extras :
  accepts classificationSchema
    (VObj [ ("note", VNull); ("sentiment", VStr "happy");
            ("aggressiveness", VNum 1); ("correctness", VNum (20 # 2));
            ("errors", VArr []); ("solution", VStr ""); ("language", VStr "") ])
  = true.
Proof. reflexivity. Qed.

(** With the variable set as the README sets it, the OpenAI client is
    chosen and is the client of the one request. *)
Example main_openai :
  main needsOpenAIKey {[ "LLM_PROVIDER" := "OPENAI"; "OPENAI_API_KEY" := "sk-test" ]}
    (boot (stubReturning exampleResult) ())
  = (Build_World (stubReturning exampleResult) ()
       [ Invoked (sampleRequest
                    (ChatOpenAI {| modelName := "gpt-4"; temperature := 0 |}));
         Logged (VObj [("result", exampleResult)]) ],
     ExitNormally).
Proof. vm_compute. reflexivity. Qed.

(** A hosted model that fails once and would answer a second call: the
    module makes the one call and ends on its error. *)
Example main_does_not_retry :
  main constructs ∅ (boot (stubFlaky timeout exampleResult) 1%nat)
  = (Build_World (stubFlaky timeout exampleResult) 0%nat
       [Invoked (sampleRequest (model ∅))],
     ExitUncaught timeout).
Proof. reflexivity. Qed.

(** A hosted model that answers with [aggressiveness = 15]: the handle
    rejects the answer, nothing is printed, the process ends on the
    parser's exception. *)
Example main_on_malformed_response :
  main constructs ∅
    (boot (parsing id (fun _ => "Failed to parse") (stubReturning tooAggressive)) ())
  = (Build_World
       (parsing id (fun _ => "Failed to parse") (stubReturning tooAggressive)) ()
       [Invoked (sampleRequest (model ∅))],
     ExitUncaught (OutputParserException "Failed to parse")).
Proof. reflexivity. Qed.

(** ** Beyond the sample input

    [promptTemplate], [chain] and the module body for inputs, environments
    and backends other than the ones the module happens to use. *)

Lemma render_systemTemplate (values : gmap string string) :
  renderTemplate systemTemplate values
  = match values !! "language" with
    | Some l =>
        Resolved ("You are an expert in " +:+ l
                  +:+ ", you have to detect grammar problems sentences")
    | None =>
        Rejected {| errorName := "Error";
                    errorMessage := "Missing value for input language" |}
    end.
Proof.
  unfold renderTemplate. rewrite parse_systemTemplate.
  cbn [mbind outcome_bind mret outcome_ret interpolateFString].
  destruct (values !! "language") as [l|]; [| reflexivity].
  cbn [mbind outcome_bind mret outcome_ret].
  rewrite append_empty_r. reflexivity.
Qed.

Lemma render_userTemplate (values : gmap string string) :
  renderTemplate "{text}" values
  = match values !! "text" with
    | Some t => Resolved t
    | None =>
        Rejected {| errorName := "Error";
                    errorMessage := "Missing value for input text" |}
    end.
Proof.
  unfold renderTemplate. rewrite parse_userTemplate.
  cbn [mbind outcome_bind mret outcome_ret interpolateFString].
  destruct (values !! "text") as [t|]; [| reflexivity].
  cbn [mbind outcome_bind mret outcome_ret].
  rewrite append_empty_r. reflexivity.
Qed.

(** X1. Rendering the prompt reads two properties of the input object and
    nothing else: when [language] and [text] are both there, the messages
    are those of that pair, whatever other properties the object has;
    when either is absent, rendering fails and yields no message. *)
Theorem formatMessages_reads_language_and_text (values : gmap string string) :
  match values !! "language", values !! "text" with
  | Some l, Some t =>
      formatMessages promptTemplate values = Resolved (renderedPair l t)
  | _, _ =>
      exists e : Error, formatMessages promptTemplate values = Rejected e
  end.
Proof.
  unfold promptTemplate, fromMessages, formatMessages.
  rewrite render_systemTemplate, render_userTemplate.
  destruct (values !! "language") as [l|], (values !! "text") as [t|];
    cbn [mbind outcome_bind mret outcome_ret]; eauto.
Qed.

(** X2. The chain renders before it calls.  With [language] and [text]
    present the backend gets one request, built from these two values
    alone; with either absent the chain rejects and the world is as it
    was: no request is made and the backend is not touched. *)
Theorem chain_calls_only_after_rendering (B : Backend) (m : BaseChatModel)
    (values : gmap string string) (w : World B) :
  match values !! "language", values !! "text" with
  | Some l, Some t =>
      chain m values w
      = ({| backend := (respond B (backend w) (requestFor m l t)).1;
            events := events w ++ [Invoked (requestFor m l t)] |},
         (respond B (backend w) (requestFor m l t)).2)
  | _, _ =>
      exists e : Error, chain m values w = (w, Rejected e)
  end.
Proof.
  pose proof (formatMessages_reads_language_and_text values) as F.
  unfold chain, pipe, invokeTemplate, llmWihStructuredOutput,
    withStructuredOutput, mbind, Async_bind, settle, invokeBackend.
  destruct (values !! "language") as [l|], (values !! "text") as [t|].
  - rewrite F. fold (requestFor m l t).
    destruct (respond B (backend w) (requestFor m l t)); reflexivity.
  - destruct F as [e ->]. exists e. reflexivity.
  - destruct F as [e ->]. exists e. reflexivity.
  - destruct F as [e ->]. exists e. reflexivity.
Qed.

Lemma length_append (a b : string) :
  String.length (a +:+ b) = (String.length a + String.length b)%nat.
Proof.
  induction a as [|c a IH]; [reflexivity |].
  change (S (String.length (a +:+ b)) = S (String.length a + String.length b)).
  now rewrite IH.
Qed.

Lemma append_cancel_l (p a b : string) : p +:+ a = p +:+ b -> a = b.
Proof.
  induction p as [|c p IH]; [trivial |].
  change (String c (p +:+ a) = String c (p +:+ b) -> a = b).
  intros [= H]. auto.
Qed.

Lemma append_cancel_r (a b s : string) : a +:+ s = b +:+ s -> a = b.
Proof.
  revert b. induction a as [|c a IH]; intros [|d b] H.
  - reflexivity.
  - change ("" +:+ s) with s in H. apply (f_equal String.length) in H.
    rewrite (length_append (String d b) s) in H. simpl in H. lia.
  - change ("" +:+ s) with s in H. apply (f_equal String.length) in H.
    rewrite (length_append (String c a) s) in H. simpl in H. lia.
  - change (String c (a +:+ s) = String d (b +:+ s)) in H.
    injection H as -> H. f_equal. auto.
Qed.

(** X3. The rendered prompt keeps its input apart: two pairs that render
    to the same messages are the same pair.  The text around the
    placeholder is fixed, so the language can be read back from the system
    message and the text is the user message. *)
Theorem rendering_is_injective (language text language' text' : string) :
  formatMessages promptTemplate (inputPair language text)
  = formatMessages promptTemplate (inputPair language' text') ->
  language = language' /\ text = text'.
Proof.
  rewrite !formatMessages_pair. unfold renderedPair.
  intros [= Hs Hu]. split; [| exact Hu].
  apply append_cancel_l in Hs. apply append_cancel_r in Hs. exact Hs.
Qed.

Lemma rendering_is_injective_witness :
  formatMessages promptTemplate (inputPair "Spanish" "Yo estas enfadado consigo")
  = formatMessages promptTemplate (inputPair "Spanish" "Yo estas enfadado consigo")
  /\ "Spanish" = "Spanish"
  /\ "Yo estas enfadado consigo" = "Yo estas enfadado consigo".
Proof.
  split; [reflexivity |].
  apply (rendering_is_injective "Spanish" "Yo estas enfadado consigo"
           "Spanish" "Yo estas enfadado consigo").
  reflexivity.
Defined.

(** X4. The module body requests through the client the environment
    selects and through no other.  When the constructor builds the
    client, exactly one request is made: through the OpenAI client exactly
    when [LLM_PROVIDER] is ["OPENAI"], and with the same schema, options
    and messages on both branches.  When the constructor throws, the
    module ends on its error with no request made. *)
Theorem main_requests_through_selected_client (B : Backend)
    (new : Construction) (env : ProcessEnv) (w : World B) :
  match new env (model env) with
  | None =>
      exists r : Request,
        requests (events (main new env w).1) = requests (events w) ++ [r]
        /\ client r = model env
        /\ (isOpenAI (client r) = true <-> env !! "LLM_PROVIDER" = Some "OPENAI")
        /\ schema r = classificationSchema
        /\ options r = {| name := "extractor" |}
        /\ messages r = renderedPair "Spanish" "Yo estas enfadado consigo"
  | Some e => main new env w = (w, ExitUncaught e)
  end.
Proof.
  rewrite main_settles. destruct (new env (model env)) as [e|]; [reflexivity |].
  exists (sampleRequest (model env)).
  split; [| split; [reflexivity | split; [| repeat split; reflexivity]]].
  - destruct (respond B (backend w) (sampleRequest (model env))) as [s' [v|e]];
      cbn [fst snd events]; rewrite requests_app; reflexivity.
  - cbn [client sampleRequest requestFor].
    destruct (model_cases env) as [[Hv ->] | [Hv ->]]; simpl; split;
      intros; congruence.
Qed.

Lemma app_one_neq {A : Type} (l : list A) (x : A) : l ++ [x] <> l.
Proof.
  intros H. apply (f_equal length) in H. rewrite length_app in H.
  simpl in H. lia.
Qed.

(** X5. Exit status and output go together.  The module ends normally
    exactly when it has logged one more object, the backend's answer under
    [result]; it ends with an uncaught error exactly when it has logged
    nothing more. *)
Theorem main_exit_matches_output (B : Backend) (new : Construction)
    (env : ProcessEnv) (w : World B) :
  ((main new env w).2 = ExitNormally
   <-> exists v : value,
         logged (events (main new env w).1)
         = logged (events w) ++ [VObj [("result", v)]])
  /\ ((exists e : Error, (main new env w).2 = ExitUncaught e)
      <-> logged (events (main new env w).1) = logged (events w)).
Proof.
  rewrite main_settles. destruct (new env (model env)) as [e0|].
  { cbn [fst snd]. split; split.
    - discriminate.
    - intros [v H]. symmetry in H. destruct (app_one_neq _ _ H).
    - reflexivity.
    - intros _. exists e0. reflexivity. }
  destruct (respond B (backend w) (sampleRequest (model env))) as [s' [v|e]];
    cbn [fst snd events]; rewrite logged_app; cbn [logged omap list_omap].
  - split; split.
    + intros _. exists v. reflexivity.
    + reflexivity.
    + intros [e He]. discriminate He.
    + intros H. destruct (app_one_neq _ _ H).
  - rewrite app_nil_r. split; split.
    + discriminate.
    + intros [v H]. symmetry in H. destruct (app_one_neq _ _ H).
    + reflexivity.
    + intros _. exists e. reflexivity.
Qed.

(** X6. The schema asks for nothing beyond its six constraints: an object
    that meets them is accepted, whatever else it carries and in whatever
    order its properties come. *)
Theorem classificationSchema_complete (v : value) :
  ClassificationResult v -> accepts classificationSchema v = true.
Proof. apply classificationSchema_spec. Qed.

Lemma classificationSchema_complete_witness :
  accepts classificationSchema
    (VObj [ ("language", VStr "Spanish");
            ("note", VNull);
            ("errors", VArr []);
            ("correctness", VNum 10);
            ("aggressiveness", VNum 1);
            ("solution", VStr "Estoy enfadado");
            ("sentiment", VStr "frustrated") ])
  = true.
Proof.
  apply (classificationSchema_complete
           (VObj [ ("language", VStr "Spanish");
                   ("note", VNull);
                   ("errors", VArr []);
                   ("correctness", VNum 10);
                   ("aggressiveness", VNum 1);
                   ("solution", VStr "Estoy enfadado");
                   ("sentiment", VStr "frustrated") ])).
  eexists _, "frustrated", 1%Q, 10%Q, [], "Estoy enfadado", "Spanish".
  split; [reflexivity |]. split; [reflexivity |].
  split; [simpl; tauto |]. split; [reflexivity |].
  split; [exists 1%Z; split; [reflexivity | lia] |].
  split; [reflexivity |].
  split; [exists 10%Z; split; [reflexivity | lia] |].
  repeat split; reflexivity.
Defined.
